(** * objectdetails: the object-introspection pretty printer

    A shallow embedding of [src/objectdetails.py] and the properties of
    its table printer, its probes and its report assembly.

    Python values are modelled as follows.
    - [str] is [string]; [len] is [String.length].
    - [int] is [Z] where the code subtracts and divides, [nat] where it
      only holds a length.
    - a tuple or list of cells is a [list string].
    - [set] is [gset string].
    - printing and raising are effects: a computation of type [M A] is
      the lines it hands to [print], in order, together with the way it
      ends, either returning a value or raising an exception. *)

From Stdlib Require Import Ascii ZArith.
From stdpp Require Import base tactics option list strings gmap.

Local Open Scope string_scope.

(** ** Effects: standard output and exceptions *)

Inductive exn : Type :=
  | IndexError
  | TypeError
  | AttributeError
  | ValueError.

Global Instance exn_eq_dec : EqDecision exn.
Proof. solve_decision. Defined.

Inductive outcome (A : Type) : Type :=
  | Returned (a : A)
  | Raised (e : exn).
Arguments Returned {A} a.
Arguments Raised {A} e.

(** The lines written to standard output (one entry per call of [print],
    without the line terminator that [print] adds) and the outcome. *)
Definition M (A : Type) : Type := (list string * outcome A)%type.

Definition stdout {A} (m : M A) : list string := fst m.

Definition ret {A} (a : A) : M A := ([], Returned a).
Definition raise {A} (e : exn) : M A := ([], Raised e).
Definition print (s : string) : M unit := ([s], Returned tt).

Definition bind {A B} (m : M A) (k : A -> M B) : M B :=
  match snd m with
  | Returned a => ((fst m ++ fst (k a))%list, snd (k a))
  | Raised e => (fst m, Raised e)
  end.

Notation "x <- m ;; k" := (bind m (fun x => k))
  (at level 100, m at next level, right associativity).
Notation "m ;;; k" := (bind m (fun _ => k))
  (at level 100, right associativity).

(** [try: body except e: handler]. Only an exception of class [e] is
    caught; what [body] printed before raising stays printed. *)
Definition try_except {A} (body : M A) (e : exn) (handler : M A) : M A :=
  match snd body with
  | Returned a => body
  | Raised e' =>
      if decide (e' = e) then ((fst body ++ fst handler)%list, snd handler)
      else body
  end.

(** [[f(x) for x in xs]], evaluated left to right. *)
Fixpoint list_comp {A B} (f : A -> M B) (xs : list A) : M (list B) :=
  match xs with
  | [] => ret []
  | x :: xs' => y <- f x ;; ys <- list_comp f xs' ;; ret (y :: ys)
  end.

(** [for x in xs: body(x)]. *)
Fixpoint for_each {A} (xs : list A) (body : A -> M unit) : M unit :=
  match xs with
  | [] => ret tt
  | x :: xs' => body x ;;; for_each xs' body
  end.

(** ** Strings *)

(** [c * n] for a one-character string [c] and a length [n]. *)
Fixpoint str_repeat (c : ascii) (n : nat) : string :=
  match n with
  | O => ""
  | S n' => String c (str_repeat c n')
  end.

(** [c * n] for a Python integer, which gives the empty string when [n]
    is not positive. *)
Definition str_mul (c : ascii) (n : Z) : string := str_repeat c (Z.to_nat n).

(** [sep.join(pieces)]. *)
Fixpoint str_join (sep : string) (pieces : list string) : string :=
  match pieces with
  | [] => ""
  | [p] => p
  | p :: ps => p +:+ sep +:+ str_join sep ps
  end.

(** ** The table printer *)

(** A replacement field [{:spec}] for a string argument, as [str.format]
    reads it: the fill character and the minimum width, if there is one.
    Strings are left-aligned by default. *)
Record field_spec : Type := FieldSpec {
  fs_fill : ascii;
  fs_width : option nat
}.

(** [f'{{:{w}}}']. The format spec is the decimal numeral of [w]. The
    numeral of 0 is the single digit [0], which the format-spec grammar
    reads as the zero-fill flag followed by no width; every other
    numeral starts with a non-zero digit and is read as the width. *)
Definition column_spec (w : nat) : field_spec :=
  match w with
  | O => FieldSpec "0"%char None
  | S _ => FieldSpec " "%char (Some w)
  end.

Definition format_field (f : field_spec) (s : string) : string :=
  match fs_width f with
  | None => s
  | Some w => s +:+ str_repeat (fs_fill f) (w - String.length s)
  end.

(** The replacement fields of a template take the positional arguments
    in order. Running out of arguments is an [IndexError]; arguments
    left over are ignored. *)
Fixpoint format_fields (fields : list field_spec) (args : list string)
  : M (list string) :=
  match fields with
  | [] => ret []
  | f :: fields' =>
      match args with
      | [] => raise IndexError
      | a :: args' =>
          rest <- format_fields fields' args' ;;
          ret (format_field f a :: rest)
      end
  end.

(** [format_spec.format] applied to the unpacked arguments, where
    [format_spec] is [' '.join(column_specs)]: the template is the fields
    separated by one space, so the result is the formatted fields
    separated by one space. *)
Definition str_format (column_specs : list field_spec) (args : list string)
  : M string :=
  pieces <- format_fields column_specs args ;;
  ret (str_join " " pieces).

(** [rows[0]]. *)
Definition first_row {A} (rows : list A) : M A :=
  match rows with
  | [] => raise IndexError
  | r :: _ => ret r
  end.

(** [max(xs)], which raises [ValueError] on an empty sequence. *)
Definition py_max (xs : list nat) : M nat :=
  match xs with
  | [] => raise ValueError
  | x :: xs' => ret (foldl Nat.max x xs')
  end.

(** [zip] applied to the unpacked sequences [rs]: the next element is taken from every sequence in turn,
    and the result ends as soon as one of them is exhausted. *)
Definition heads {A} (rs : list (list A)) : option (list A) :=
  mapM head rs.

Fixpoint zip_upto {A} (n : nat) (rs : list (list A)) : list (list A) :=
  match n with
  | O => []
  | S n' =>
      match heads rs with
      | None => []
      | Some hs => hs :: zip_upto n' (map (@tail A) rs)
      end
  end.

Definition zip_star {A} (rs : list (list A)) : list (list A) :=
  match rs with
  | [] => []
  | r :: _ => zip_upto (length r) rs
  end.

Definition print_table (rows : list (list string))
    (column_headers : list string) : M unit :=
  row0 <- first_row rows ;;
  let num_of_columns := length row0 in
  let num_of_headers := length column_headers in
  if negb (num_of_headers =? num_of_columns)%nat then raise TypeError
  else
    let rows_with_headers := column_headers :: rows in
    let columns_of_rows := zip_star rows_with_headers in
    column_widths <-
      list_comp (fun column => py_max (map String.length column))
                columns_of_rows ;;
    let column_specs := map column_spec column_widths in
    header_line <- str_format column_specs column_headers ;;
    print header_line ;;;
    let rules := map (str_repeat "-"%char) column_widths in
    rule_line <- str_format column_specs rules ;;
    print rule_line ;;;
    for_each rows (fun row =>
      line <- str_format column_specs row ;;
      print line).

(** ** Reflection: objects and their members *)

(** What the code reads from a resolved member [v = getattr(obj, name)]:
    - [callable(v)];
    - [reprlib.repr(v)];
    - [v.__name__], absent when reading it raises [AttributeError];
    - [str(inspect.signature(v))], absent when [inspect.signature]
      raises [ValueError];
    - [v.__doc__], absent when it is [None]. *)
Record value : Type := Value {
  v_callable : bool;
  v_repr : string;
  v_name : option string;
  v_signature : option string;
  v_doc : option string
}.

(** What the code reads from the inspected object:
    - [f'{type(obj)}'];
    - what the call [obj.__str__()] does: it returns a string or it
      raises, as it does with [TypeError] when the object is a class;
    - [inspect.getdoc(obj)], absent when it is [None];
    - [dir(obj)];
    - [getattr(obj, name)], absent when it raises [AttributeError]. *)
Record object : Type := Object {
  o_type : string;
  o_str : outcome string;
  o_getdoc : option string;
  o_dir : list string;
  o_attrs : gmap string value
}.

Definition dir (obj : object) : list string := o_dir obj.

Definition getattr (obj : object) (name : string) : M value :=
  match o_attrs obj !! name with
  | Some v => ret v
  | None => raise AttributeError
  end.

Definition callable (v : value) : bool := v_callable v.

Definition get_name (method : value) : M string :=
  match v_name method with
  | Some n => ret n
  | None => raise AttributeError
  end.

Definition inspect_signature (method : value) : M string :=
  match v_signature method with
  | Some s => ret s
  | None => raise ValueError
  end.

(** [filter(p, xs)] consumed in full, [p] being called on the elements
    in order. *)
Fixpoint py_filter {A} (p : A -> M bool) (xs : list A) : M (list A) :=
  match xs with
  | [] => ret []
  | x :: xs' =>
      keep <- p x ;;
      rest <- py_filter p xs' ;;
      ret (if keep then x :: rest else rest)
  end.

(** [str.splitlines]: the characters that end a line, among the code
    points below 256. *)
Definition is_linebreak (c : ascii) : bool :=
  match nat_of_ascii c with
  | 10 | 11 | 12 | 13 | 28 | 29 | 30 | 133 => true
  | _ => false
  end.

Definition is_cr (c : ascii) : bool := (nat_of_ascii c =? 13)%nat.
Definition is_lf (c : ascii) : bool := (nat_of_ascii c =? 10)%nat.

(** [line] is the line read so far; [after_cr] tells that the previous
    character was a carriage return, which a line feed then completes.
    A final line break opens no further line. *)
Fixpoint splitlines_from (after_cr : bool) (line : string) (s : string)
  : list string :=
  match s with
  | EmptyString => match line with EmptyString => [] | _ => [line] end
  | String c s' =>
      if after_cr && is_lf c then splitlines_from false line s'
      else if is_linebreak c then line :: splitlines_from (is_cr c) "" s'
      else splitlines_from false (line +:+ String c "") s'
  end.

Definition splitlines (s : string) : list string :=
  splitlines_from false "" s.

Definition full_signature (method : value) : M string :=
  try_except
    (name <- get_name method ;;
     sig <- inspect_signature method ;;
     ret (name +:+ " " +:+ sig))
    ValueError
    (name <- get_name method ;;
     ret (name +:+ " (...)")).

Definition brief_documentation (method : value) : string :=
  match v_doc method with
  | Some doc =>
      match splitlines doc with
      | line :: _ => line
      | [] => ""
      end
  | None => ""
  end.

(** ** The report *)

Definition DEFAULT_LENGTH : Z := 140.

Definition len (s : string) : Z := Z.of_nat (String.length s).

Definition print_section_delimiter (length : Z) : M unit :=
  print (str_mul "="%char length).

Definition print_type (obj : object) : M unit :=
  print (o_type obj).

(** [print(None)] writes the word None. *)
Definition print_documentation (obj : object) : M unit :=
  print (default "None" (o_getdoc obj)).

Definition newline : string := String "010"%char "".

Section probes.
(** The order in which a [set] hands out its elements is not
    specified; each element comes exactly once. *)
Variable iter : gset string -> list string.

(** [set(filter(lambda atrr_name: callable(getattr(obj, atrr_name)),
    all_attributes))]. *)
Definition names_of_methods (obj : object) (all_attributes : gset string)
  : M (gset string) :=
  kept <- py_filter
            (fun atrr_name => v <- getattr obj atrr_name ;; ret (callable v))
            (iter all_attributes) ;;
  ret (list_to_set kept).

(** The set that [print_attributes] iterates over. *)
Definition attributes_excluding_methods (obj : object) : M (gset string) :=
  let all_attributes : gset string := list_to_set (dir obj) in
  methods <- names_of_methods obj all_attributes ;;
  ret (all_attributes ∖ methods).

Definition attributes_names_and_values (obj : object)
  : M (list (list string)) :=
  names <- attributes_excluding_methods obj ;;
  list_comp (fun name => v <- getattr obj name ;; ret [name; v_repr v])
            (iter names).

Definition print_attributes (obj : object) : M unit :=
  rows <- attributes_names_and_values obj ;;
  print_table rows ["Name"; "Value"].

(** The set that [print_methods] iterates over. *)
Definition method_names (obj : object) : M (gset string) :=
  let all_attributes : gset string := list_to_set (dir obj) in
  names_of_methods obj all_attributes.

(** [methods] is a generator: each member is resolved just before its
    row is built. *)
Definition methods_names_and_docs (obj : object) : M (list (list string)) :=
  names <- method_names obj ;;
  list_comp (fun method_name =>
               method <- getattr obj method_name ;;
               sig <- full_signature method ;;
               ret [sig; brief_documentation method])
            (iter names).

Definition print_methods (obj : object) : M unit :=
  rows <- methods_names_and_docs obj ;;
  print_table rows ["Name"; "Description"].

Definition print_section (obj : object) (section_name : string)
    (function_name : object -> M unit) : M unit :=
  print_section_delimiter DEFAULT_LENGTH ;;;
  print (section_name +:+ ":" +:+ newline) ;;;
  function_name obj.

Definition print_object_details (obj : object) : M unit :=
  print_section obj "Type" print_type ;;;
  print_section obj "Documentation" print_documentation ;;;
  print_section obj "Attributes" print_attributes ;;;
  print_section obj "Methods" print_methods ;;;
  print_section_delimiter DEFAULT_LENGTH.
End probes.

Definition dquote : string := String "034"%char "".

(** [obj.__str__()]. *)
Definition call_str (obj : object) : M string := ([], o_str obj).

(** The local variables of [print_title]: the title as a function of
    the string that [obj.__str__()] returned, the others as functions
    of the title. [banner] is [full_title] before the trailing fill. *)
Definition title (str : string) : string :=
  "Object " +:+ dquote +:+ str +:+ dquote +:+ " details".

Definition num_of_fill_symbols (title : string) : Z :=
  (DEFAULT_LENGTH - 4 - len title) / 2.

Definition banner (title : string) : string :=
  str_mul "#"%char (num_of_fill_symbols title) +:+ "  " +:+ title +:+ "  "
  +:+ str_mul "#"%char (num_of_fill_symbols title).

Definition full_title (title : string) : string :=
  if (len (banner title) <? DEFAULT_LENGTH)%Z
  then banner title +:+ str_mul "#"%char (DEFAULT_LENGTH - len (banner title))
  else banner title.

Definition print_title (obj : object) : M unit :=
  str <- call_str obj ;;
  print (full_title (title str)).

(** ** Sample objects *)

Definition data (repr : string) : value :=
  Value false repr None None None.

Definition method (name sig : string) (doc : option string) : value :=
  Value true "<bound method>" (Some name) (Some sig) doc.

(** [Customer('Jake', 'Robin', 25, 'Male')], with the members that the
    class itself declares. *)
Definition test_customer : object :=
  Object "<class '__main__.Customer'>" (Returned "Customer")
    (Some "Sample class to test print_object_details function")
    ["__init__"; "__str__"; "age"; "first_name"; "gender";
     "get_full_name"; "last_name"]
    (list_to_map
       [("__init__",
         method "__init__"
           "(first_name: str, last_name: str, age: int, gender: str)" None);
        ("__str__", method "__str__" "()" None);
        ("age", data "25");
        ("first_name", data "'Jake'");
        ("gender", data "'Male'");
        ("get_full_name",
         method "get_full_name" "()"
           (Some (newline +:+ "        Return full customer's name"
                  +:+ newline +:+ "        ")));
        ("last_name", data "'Robin'")]).


(** An object that stores a [functools.partial] under [handler]: the
    member is callable and has no [__name__]. *)
Definition partial_holder : object :=
  Object "<class 'Holder'>" (Returned "Holder") None
    ["handler"; "label"]
    (list_to_map
       [("handler",
         Value true "functools.partial(<built-in function print>)" None
           (Some "(x)") (Some "partial(func)"));
        ("label", data "'x'")]).

(** An object whose [__dir__] lists one method and nothing else. *)
Definition methods_only : object :=
  Object "<class 'Bare'>" (Returned "Bare") None
    ["run"]
    (list_to_map [("run", method "run" "()" None)]).

(** An object whose [__dir__] lists one data attribute and nothing
    else. *)
Definition data_only : object :=
  Object "<class 'Point'>" (Returned "Point") None
    ["x"]
    (list_to_map [("x", data "1")]).


(** ** What the specification says a table looks like *)

(** The width of column [j]: the largest character count among the
    cells that the rows of [table] have at index [j]. *)
Definition col_width (table : list (list string)) (j : nat) : nat :=
  max_list (map (fun r => String.length (default "" (r !! j))) table).

(** A cell left-justified in a field of [w] characters. *)
Definition ljust (w : nat) (cell : string) : string :=
  cell +:+ str_repeat " "%char (w - String.length cell).

Definition table_line (widths : list nat) (row : list string) : string :=
  str_join " " (zip_with ljust widths row).

Definition rule_line (widths : list nat) : string :=
  str_join " " (map (str_repeat "-"%char) widths).

(** The widths that [print_table] computes from the columns it gets by
    zipping. *)
Definition zipped_widths (table : list (list string)) : list nat :=
  map (fun column => max_list (map String.length column)) (zip_star table).

(** ** The probes without effects

    Pure counterparts of the steps of the probes; the properties below
    relate the probes to them. *)

Definition of_option {A} (e : exn) (o : option A) : M A :=
  match o with
  | Some a => ret a
  | None => raise e
  end.

(** [getattr(obj, name)] does not raise. *)
Definition resolvable (obj : object) (name : string) : bool :=
  match o_attrs obj !! name with
  | Some _ => true
  | None => false
  end.

(** [name] resolves to a callable member of [obj]. *)
Definition is_method (obj : object) (name : string) : bool :=
  match o_attrs obj !! name with
  | Some v => callable v
  | None => false
  end.

(** The members that the probes count as methods, [iter] being the
    order in which a set hands out its elements. *)
Definition methods_of (iter : gset string -> list string) (obj : object)
  : gset string :=
  list_to_set (List.filter (is_method obj) (iter (list_to_set (dir obj)))).

(** The signature text of a member whose [__name__] is [name]. *)
Definition signature_text (name : string) (method : value) : string :=
  match v_signature method with
  | Some sig => name +:+ " " +:+ sig
  | None => name +:+ " (...)"
  end.

(** The row of a callable member, when it has a [__name__]. *)
Definition method_row (method : value) : option (list string) :=
  match v_name method with
  | Some name => Some [signature_text name method; brief_documentation method]
  | None => None
  end.

(** ** Further pure counterparts *)

(** The cell count of the shortest row of a table, which is where
    zipping stops. *)
Definition min_cells {A} (table : list (list A)) : nat :=
  match table with
  | [] => 0
  | r :: rs => foldr Nat.min (length r) (map length rs)
  end.

(** The characters of a text that come before its first line break. *)
Fixpoint first_line (s : string) : string :=
  match s with
  | EmptyString => ""
  | String c s' => if is_linebreak c then "" else String c (first_line s')
  end.

(** * Properties *)

(** ** The effect monad *)

Lemma bind_ret_l {A B} (a : A) (k : A -> M B) : bind (ret a) k = k a.
Proof. unfold bind, ret. simpl. by destruct (k a). Qed.

Lemma bind_raise {A B} (e : exn) (k : A -> M B) : bind (raise e) k = raise e.
Proof. reflexivity. Qed.

Lemma bind_print {B} (s : string) (k : unit -> M B) :
  bind (print s) k = (s :: fst (k tt), snd (k tt)).
Proof. reflexivity. Qed.

Lemma bind_returned {A B} (m : M A) (k : A -> M B) out a :
  m = (out, Returned a) -> bind m k = ((out ++ fst (k a))%list, snd (k a)).
Proof. by intros ->. Qed.

Lemma bind_raised {A B} (m : M A) (k : A -> M B) out e :
  m = (out, Raised e) -> bind m k = (out, Raised e).
Proof. by intros ->. Qed.

(** ** Strings *)

Lemma append_cons (c : ascii) (s t : string) :
  String c s +:+ t = String c (s +:+ t).
Proof. reflexivity. Qed.

Lemma append_empty_r (s : string) : s +:+ "" = s.
Proof. induction s; [done|]. rewrite append_cons. congruence. Qed.

Lemma length_append (s t : string) :
  String.length (s +:+ t) = String.length s + String.length t.
Proof. induction s; [done|]. rewrite append_cons. simpl. congruence. Qed.

Lemma length_str_repeat (c : ascii) (n : nat) :
  String.length (str_repeat c n) = n.
Proof. induction n; simpl; congruence. Qed.

Lemma length_ljust (w : nat) (cell : string) :
  String.length (ljust w cell) = Nat.max w (String.length cell).
Proof. unfold ljust. rewrite length_append, length_str_repeat. lia. Qed.

Lemma ljust_rule (c : ascii) (w : nat) : ljust w (str_repeat c w) = str_repeat c w.
Proof.
  unfold ljust. rewrite length_str_repeat, Nat.sub_diag. apply append_empty_r.
Qed.

Lemma format_field_column_spec (w : nat) (s : string) :
  format_field (column_spec w) s = ljust w s.
Proof.
  destruct w; unfold format_field, ljust; simpl; [|done].
  by rewrite append_empty_r.
Qed.

(** ** Zipping rows into columns *)

Lemma heads_cons {A} (rs : list (list A)) (hs : list A) :
  heads rs = Some hs ->
  Forall2 (fun r h => exists r', r = h :: r') rs hs.
Proof.
  unfold heads. rewrite mapM_Some. intros H.
  induction H as [|r h rs hs Hh _ IH]; constructor; [|done].
  destruct r; simplify_eq/=. eauto.
Qed.

Lemma zip_upto_column_length {A} (n : nat) (rs : list (list A)) :
  Forall (fun column => length column = length rs) (zip_upto n rs).
Proof.
  revert rs. induction n as [|n IH]; intros rs; simpl; [constructor|].
  destruct (heads rs) as [hs|] eqn:E; constructor.
  - symmetry. by eapply length_mapM.
  - specialize (IH (map tail rs)). by rewrite length_map in IH.
Qed.

Lemma zip_upto_length_le {A} (n : nat) (rs : list (list A)) (r : list A) :
  r ∈ rs -> length (zip_upto n rs) <= length r.
Proof.
  revert rs r. induction n as [|n IH]; intros rs r Hr; simpl; [lia|].
  destruct (heads rs) as [hs|] eqn:E; simpl; [|lia].
  apply heads_cons in E.
  destruct (proj1 (list_elem_of_lookup _ _) Hr) as [i Hi].
  destruct (Forall2_lookup_l _ _ _ _ _ E Hi) as (h & _ & r' & ->).
  simpl. apply le_n_S, IH.
  change r' with (tail (h :: r')). by apply list_elem_of_fmap_2.
Qed.

Lemma zip_upto_uniform {A} (d : A) (n : nat) (rs : list (list A)) :
  Forall (fun r => length r = n) rs ->
  zip_upto n rs
  = map (fun j => map (fun r => default d (r !! j)) rs) (seq 0 n).
Proof.
  revert rs. induction n as [|n IH]; intros rs Hrs; simpl; [done|].
  assert (heads rs = Some (map (fun r => default d (r !! 0)) rs)) as ->.
  { unfold heads. apply mapM_Some.
    induction Hrs as [|r rs Hr _ IHrs]; simpl; constructor; [|done].
    by destruct r. }
  f_equal. rewrite IH.
  - rewrite <- seq_shift, map_map. apply map_ext. intros j.
    rewrite map_map. apply map_ext. intros r. by destruct r.
  - apply Forall_fmap. eapply Forall_impl; [exact Hrs|].
    intros r Hr. destruct r; simpl in *; lia.
Qed.

(** ** Column widths and formatted lines *)

Lemma foldl_max (x : nat) (xs : list nat) :
  foldl Nat.max x xs = max_list (x :: xs).
Proof.
  revert x. induction xs as [|y xs IH]; intros x; simpl; [lia|].
  rewrite IH. simpl. lia.
Qed.

Lemma py_max_nonempty (xs : list nat) :
  xs <> [] -> py_max xs = ret (max_list xs).
Proof. destruct xs as [|x xs]; [done|]. intros _. simpl. by rewrite foldl_max. Qed.

Lemma list_comp_ret {A B} (f : A -> M B) (g : A -> B) (xs : list A) :
  Forall (fun x => f x = ret (g x)) xs -> list_comp f xs = ret (map g xs).
Proof.
  induction 1 as [|x xs Hx _ IH]; simpl; [done|].
  by rewrite Hx, bind_ret_l, IH, bind_ret_l.
Qed.

Lemma column_widths_ret (table : list (list string)) :
  table <> [] ->
  list_comp (fun column => py_max (map String.length column)) (zip_star table)
  = ret (zipped_widths table).
Proof.
  intros Htable. apply list_comp_ret.
  destruct table as [|r rs]; [done|]. unfold zip_star.
  eapply Forall_impl; [apply zip_upto_column_length|].
  intros column Hlen. apply py_max_nonempty.
  destruct column; simpl in *; [lia|done].
Qed.

Lemma format_fields_enough (widths : list nat) (args : list string) :
  length widths <= length args ->
  format_fields (map column_spec widths) args = ret (zip_with ljust widths args).
Proof.
  revert args. induction widths as [|w widths IH]; intros args Hlen; [done|].
  destruct args as [|a args]; simpl in *; [lia|].
  rewrite IH by lia. by rewrite bind_ret_l, format_field_column_spec.
Qed.

Lemma str_format_enough (widths : list nat) (args : list string) :
  length widths <= length args ->
  str_format (map column_spec widths) args = ret (table_line widths args).
Proof.
  intros Hlen. unfold str_format.
  by rewrite format_fields_enough, bind_ret_l.
Qed.

Lemma zip_with_ljust_rules (widths : list nat) :
  zip_with ljust widths (map (str_repeat "-"%char) widths)
  = map (str_repeat "-"%char) widths.
Proof. induction widths; simpl; [done|]. by rewrite ljust_rule, IHwidths. Qed.

Lemma for_each_print_lines {A} (f : A -> M string) (g : A -> string)
    (xs : list A) :
  Forall (fun x => f x = ret (g x)) xs ->
  for_each xs (fun x => line <- f x ;; print line) = (map g xs, Returned tt).
Proof.
  induction 1 as [|x xs Hx _ IH]; simpl; [done|].
  by rewrite Hx, bind_ret_l, bind_print, IH.
Qed.

Lemma length_zipped_widths_le (table : list (list string)) (r : list string) :
  r ∈ table -> length (zipped_widths table) <= length r.
Proof.
  intros Hr. unfold zipped_widths, zip_star. rewrite length_map.
  destruct table; [by apply elem_of_nil in Hr|].
  by apply zip_upto_length_le.
Qed.

(** Once the first row has passed the arity check, the call prints the
    header line, the rule line and one line per row, and returns:
    nothing later can raise. *)
Lemma print_table_checked (row0 : list string) (rows : list (list string))
    (column_headers : list string) :
  length column_headers = length row0 ->
  let widths := zipped_widths (column_headers :: row0 :: rows) in
  print_table (row0 :: rows) column_headers
  = (table_line widths column_headers :: rule_line widths
       :: map (table_line widths) (row0 :: rows),
     Returned tt).
Proof.
  intros Hlen widths. unfold print_table.
  cbn [first_row]. rewrite bind_ret_l, Hlen, Nat.eqb_refl. cbn [negb].
  rewrite column_widths_ret by done. rewrite bind_ret_l.
  fold widths.
  assert (forall r, r ∈ column_headers :: row0 :: rows ->
                    length widths <= length r) as Hw.
  { intros r. apply length_zipped_widths_le. }
  rewrite str_format_enough by (apply Hw; left).
  rewrite bind_ret_l, bind_print.
  rewrite str_format_enough by (rewrite length_map; lia).
  rewrite bind_ret_l, bind_print.
  rewrite (for_each_print_lines _ (table_line widths)).
  - unfold table_line at 2. rewrite zip_with_ljust_rules. done.
  - apply Forall_forall. intros r Hr. apply str_format_enough, Hw. by right.
Qed.

Lemma zipped_widths_uniform (table : list (list string)) (n : nat) :
  table <> [] ->
  Forall (fun r => length r = n) table ->
  zipped_widths table = map (col_width table) (seq 0 n).
Proof.
  intros Hne Hall. unfold zipped_widths, zip_star.
  destruct table as [|r rs]; [done|].
  assert (length r = n) as -> by (by inversion Hall).
  rewrite (zip_upto_uniform "" n) by done.
  rewrite map_map. apply map_ext. intros j. unfold col_width.
  by rewrite map_map.
Qed.

Lemma length_le_col_width (table : list (list string)) (row : list string)
    (j : nat) (cell : string) :
  row ∈ table -> row !! j = Some cell ->
  String.length cell <= col_width table j.
Proof.
  intros Hrow Hcell. unfold col_width. apply max_list_elem_of_le.
  apply list_elem_of_fmap. exists row. by rewrite Hcell.
Qed.

Lemma arity_check_fails (row0 : list string)
    (rows : list (list string)) (column_headers : list string) :
  length column_headers <> length row0 ->
  print_table (row0 :: rows) column_headers = ([], Raised TypeError).
Proof.
  intros Hlen. unfold print_table. cbn [first_row]. rewrite bind_ret_l.
  apply Nat.eqb_neq in Hlen. by rewrite Hlen.
Qed.

(** ** The table printer: claims *)

(** C1. The claim is that a call of [print_table] with no data rows
    prints the header line and the rule line and does not raise, so that
    a probe with nothing to list prints an empty table. The code reads
    [rows[0]] before anything else: with no rows every call, whatever
    the headers, raises [IndexError] and prints nothing, and so do
    [print_attributes] on an object without data attributes and
    [print_methods] on an object without callable members. *)
Theorem print_table_no_rows :
  (forall column_headers,
      print_table [] column_headers = ([], Raised IndexError))
  /\ (attributes_names_and_values elements methods_only = ([], Returned [])
      /\ print_attributes elements methods_only = ([], Raised IndexError))
  /\ (methods_names_and_docs elements data_only = ([], Returned [])
      /\ print_methods elements data_only = ([], Raised IndexError)).
Proof. repeat split; vm_compute; reflexivity. Qed.

(** C2. For a non-empty sequence of rows that all have as many cells as
    there are headers, [print_table] returns after printing exactly
    [rows + 2] lines: the header line, the rule line made of one run of
    dashes per column, as long as the column is wide, the runs separated
    by one space, and one line per row in the order of the input. In
    every line each cell is followed by spaces up to exactly the width
    of its column, which is the largest character count among the header
    and the cells of that column. *)
Theorem print_table_well_formed (rows : list (list string))
    (column_headers : list string) :
  rows <> [] ->
  Forall (fun row => length row = length column_headers) rows ->
  let table := column_headers :: rows in
  let widths := map (col_width table) (seq 0 (length column_headers)) in
  print_table rows column_headers
  = (table_line widths column_headers
       :: str_join " " (map (str_repeat "-"%char) widths)
       :: map (fun row => str_join " " (zip_with ljust widths row)) rows,
     Returned tt)
  /\ length (stdout (print_table rows column_headers)) = length rows + 2
  /\ forall row j cell, row ∈ table -> row !! j = Some cell ->
       exists pad,
         ljust (col_width table j) cell = cell +:+ str_repeat " "%char pad
         /\ String.length cell + pad = col_width table j.
Proof.
  intros Hne Hall table widths.
  assert (print_table rows column_headers
          = (table_line widths column_headers :: rule_line widths
               :: map (table_line widths) rows, Returned tt)) as Hrun.
  { destruct rows as [|row0 rows]; [done|].
    rewrite print_table_checked by (by inversion Hall).
    rewrite (zipped_widths_uniform _ (length column_headers)); [done..|].
    by constructor. }
  split; [exact Hrun|]. split.
  - rewrite Hrun. unfold stdout. simpl. rewrite length_map. lia.
  - intros row j cell Hrow Hcell.
    exists (col_width table j - String.length cell). split; [done|].
    pose proof (length_le_col_width table row j cell Hrow Hcell). lia.
Qed.

Lemma print_table_well_formed_witness :
  [["Alice"; "30"]; ["Bob"; "5"]] <> []
  /\ Forall (fun row => length row = length ["Name"; "Age"])
            [["Alice"; "30"]; ["Bob"; "5"]]
  /\ print_table [["Alice"; "30"]; ["Bob"; "5"]] ["Name"; "Age"]
     = (["Name  Age"; "----- ---"; "Alice 30 "; "Bob   5  "], Returned tt)
  /\ length (stdout (print_table [["Alice"; "30"]; ["Bob"; "5"]]
                                 ["Name"; "Age"])) = 4.
Proof.
  assert ([["Alice"; "30"]; ["Bob"; "5"]] <> []) as Hne by discriminate.
  assert (Forall (fun row => length row = length ["Name"; "Age"])
                 [["Alice"; "30"]; ["Bob"; "5"]]) as Hall
    by (repeat constructor).
  destruct (print_table_well_formed _ _ Hne Hall) as (Hrun & Hlen & _).
  split; [exact Hne|]. split; [exact Hall|].
  split; [exact Hrun | exact Hlen].
Defined.

(** C3. With a non-empty sequence of rows, when the number of headers
    differs from the number of cells of the first row the call raises
    [TypeError], and it has printed no line at that point. *)
Theorem print_table_arity_mismatch (row0 : list string)
    (rows : list (list string)) (column_headers : list string) :
  length column_headers <> length row0 ->
  print_table (row0 :: rows) column_headers = ([], Raised TypeError).
Proof. apply arity_check_fails. Qed.

Lemma print_table_arity_mismatch_witness :
  length ["Name"] <> length ["Alice"; "30"]
  /\ print_table [["Alice"; "30"]; ["Bob"; "5"]] ["Name"]
     = ([], Raised TypeError).
Proof.
  assert (length ["Name"] <> length ["Alice"; "30"]) as Hlen by discriminate.
  split; [exact Hlen|].
  exact (print_table_arity_mismatch ["Alice"; "30"] [["Bob"; "5"]] ["Name"] Hlen).
Defined.

(** C4, as stated, fails: a row after the first may be shorter or longer
    than the header row, and the call still prints a table and returns.
    With a short row the columns are cut to that row; with a long row
    its extra cells are left out. *)
Lemma print_table_later_row_unchecked :
  (Exists (fun row => length row <> length ["H1"; "H2"]) [["a"; "b"]; ["c"]]
   /\ print_table [["a"; "b"]; ["c"]] ["H1"; "H2"]
      = (["H1"; "--"; "a "; "c "], Returned tt))
  /\ (Exists (fun row => length row <> length ["H"]) [["a"]; ["b"; "c"]]
      /\ print_table [["a"]; ["b"; "c"]] ["H"]
         = (["H"; "-"; "a"; "b"], Returned tt)).
Proof.
  split; (split; [|vm_compute; reflexivity]);
    apply Exists_cons_tl, Exists_cons_hd; discriminate.
Qed.

(** C4, amended. Only the first row is checked. A call with at least one
    row raises [TypeError], having printed nothing, when the first row
    and the header row differ in length; otherwise it returns after
    printing the header line, the rule line and one line per row,
    whatever the lengths of the later rows. *)
Theorem print_table_checks_first_row_only (row0 : list string)
    (rows : list (list string)) (column_headers : list string) :
  print_table (row0 :: rows) column_headers
  = if decide (length column_headers = length row0)
    then
      let widths := zipped_widths (column_headers :: row0 :: rows) in
      (table_line widths column_headers :: rule_line widths
         :: map (table_line widths) (row0 :: rows),
       Returned tt)
    else ([], Raised TypeError).
Proof.
  case_decide.
  - by apply print_table_checked.
  - by apply arity_check_fails.
Qed.

(** C8, as stated, fails: the rule line under a column five characters
    wide has five dashes, not four. *)
Lemma alice_bob_rule_line_differs :
  stdout (print_table [["Alice"; "30"]; ["Bob"; "5"]] ["Name"; "Age"])
  <> ["Name  Age"; "----  ---"; "Alice 30 "; "Bob   5  "].
Proof. vm_compute. discriminate. Qed.

(** C8, amended. With the rows [("Alice","30")] and [("Bob","5")] and the
    headers Name and Age, the call prints exactly four lines: the header
    line, the rule line of five dashes, a space and three dashes, and
    the two rows, the columns being 5 and 3 wide. *)
Theorem print_table_alice_bob :
  print_table [["Alice"; "30"]; ["Bob"; "5"]] ["Name"; "Age"]
  = (["Name  Age"; "----- ---"; "Alice 30 "; "Bob   5  "], Returned tt)
  /\ zipped_widths [["Name"; "Age"]; ["Alice"; "30"]; ["Bob"; "5"]] = [5; 3].
Proof. split; vm_compute; reflexivity. Qed.


(** ** The probes *)

Lemma full_signature_of_option (method : value) :
  full_signature method
  = of_option AttributeError
      (match v_name method with
       | Some name => Some (signature_text name method)
       | None => None
       end).
Proof.
  unfold full_signature, signature_text, get_name, inspect_signature.
  by destruct (v_name method), (v_signature method).
Qed.

Lemma method_row_step (obj : object) (method_name : string) :
  (method <- getattr obj method_name ;;
   sig <- full_signature method ;;
   ret [sig; brief_documentation method])
  = of_option AttributeError (o_attrs obj !! method_name ≫= method_row).
Proof.
  unfold getattr. destruct (o_attrs obj !! method_name) as [m|]; [|done].
  rewrite bind_ret_l, full_signature_of_option. unfold method_row. simpl.
  by destruct (v_name m).
Qed.

Lemma list_comp_of_option {A B} (e : exn) (f : A -> M B) (g : A -> option B)
    (xs : list A) :
  (forall x, f x = of_option e (g x)) ->
  list_comp f xs = of_option e (mapM g xs).
Proof.
  intros Hf. induction xs as [|x xs IH]; [done|].
  cbn [list_comp]. rewrite Hf, IH. simpl.
  destruct (g x); [|done]. simpl. rewrite bind_ret_l.
  destruct (mapM g xs); [|done]. simpl. by rewrite !bind_ret_l.
Qed.

Lemma py_filter_getattr (obj : object) (xs : list string) :
  py_filter (fun atrr_name => v <- getattr obj atrr_name ;; ret (callable v)) xs
  = if forallb (resolvable obj) xs
    then ret (List.filter (is_method obj) xs)
    else raise AttributeError.
Proof.
  induction xs as [|x xs IH]; [done|].
  cbn [py_filter forallb List.filter]. rewrite IH.
  unfold getattr, resolvable, is_method.
  destruct (o_attrs obj !! x) as [v|]; [|done].
  rewrite !bind_ret_l. cbn [andb].
  destruct (forallb _ xs); [|done].
  by rewrite !bind_ret_l.
Qed.

Section probe_properties.
Variable iter : gset string -> list string.
Hypothesis iter_perm : forall s, iter s ≡ₚ elements s.

Lemma elem_of_iter (s : gset string) (x : string) : x ∈ iter s <-> x ∈ s.
Proof. by rewrite iter_perm, elem_of_elements. Qed.

Lemma elem_of_methods_of (obj : object) (x : string) :
  x ∈ methods_of iter obj <-> x ∈ dir obj /\ is_method obj x = true.
Proof.
  unfold methods_of. rewrite elem_of_list_to_set, list_elem_of_In, filter_In.
  by rewrite <- list_elem_of_In, elem_of_iter, elem_of_list_to_set.
Qed.

Lemma method_names_cases (obj : object) :
  method_names iter obj
  = if forallb (resolvable obj) (iter (list_to_set (dir obj)))
    then ret (methods_of iter obj)
    else raise AttributeError.
Proof.
  unfold method_names, names_of_methods. rewrite py_filter_getattr.
  by destruct (forallb _ _).
Qed.

Lemma attributes_excluding_methods_cases (obj : object) :
  attributes_excluding_methods iter obj
  = if forallb (resolvable obj) (iter (list_to_set (dir obj)))
    then ret (list_to_set (dir obj) ∖ methods_of iter obj)
    else raise AttributeError.
Proof.
  unfold attributes_excluding_methods, names_of_methods.
  rewrite py_filter_getattr. by destruct (forallb _ _).
Qed.

Lemma methods_names_and_docs_cases (obj : object) :
  methods_names_and_docs iter obj
  = if forallb (resolvable obj) (iter (list_to_set (dir obj)))
    then of_option AttributeError
           (mapM (fun name => o_attrs obj !! name ≫= method_row)
                 (iter (methods_of iter obj)))
    else raise AttributeError.
Proof.
  unfold methods_names_and_docs. rewrite method_names_cases.
  destruct (forallb _ _); [|done]. rewrite bind_ret_l.
  apply list_comp_of_option, method_row_step.
Qed.

Lemma forallb_resolvable (obj : object) :
  forallb (resolvable obj) (iter (list_to_set (dir obj))) = true
  <-> forall x, x ∈ dir obj -> is_Some (o_attrs obj !! x).
Proof.
  rewrite forallb_forall. unfold resolvable. split.
  - intros H x Hx. specialize (H x).
    rewrite <- list_elem_of_In, elem_of_iter, elem_of_list_to_set in H.
    specialize (H Hx). by destruct (o_attrs obj !! x).
  - intros H x Hx.
    rewrite <- list_elem_of_In, elem_of_iter, elem_of_list_to_set in Hx.
    by destruct (H x Hx) as [v ->].
Qed.
End probe_properties.

Lemma elements_iter_perm (s : gset string) : elements s ≡ₚ elements s.
Proof. reflexivity. Qed.

Lemma print_table_pairs (rows : list (list string)) (h1 h2 : string) :
  rows <> [] ->
  Forall (fun row => length row = 2) rows ->
  exists w1 w2,
    print_table rows [h1; h2]
    = (table_line [w1; w2] [h1; h2] :: rule_line [w1; w2]
         :: map (table_line [w1; w2]) rows,
       Returned tt).
Proof.
  intros Hne Hall. destruct rows as [|row0 rows]; [done|].
  exists (col_width ([h1; h2] :: row0 :: rows) 0),
         (col_width ([h1; h2] :: row0 :: rows) 1).
  rewrite print_table_checked by (by inversion Hall).
  rewrite (zipped_widths_uniform _ 2); [done..|]. by constructor.
Qed.

Lemma method_rows_pairs (obj : object) (names : list string)
    (rows : list (list string)) :
  mapM (fun name => o_attrs obj !! name ≫= method_row) names = Some rows ->
  Forall (fun row => length row = 2) rows.
Proof.
  intros H. apply mapM_Some_1 in H.
  induction H as [|name row names rows Hrow _ IH]; constructor; [|done].
  destruct (o_attrs obj !! name) as [v|]; [|done]. simpl in Hrow.
  unfold method_row in Hrow. destruct (v_name v); by simplify_eq.
Qed.



Section probe_claims.
Variable iter : gset string -> list string.
Hypothesis iter_perm : forall s, iter s ≡ₚ elements s.

(** C6. For any object, either some enumerated name does not resolve,
    and then both probes raise [AttributeError] before selecting
    anything, or both select a set of names, and then the two sets are
    disjoint and their union is exactly the set of the names that
    [dir] enumerates. *)
Theorem probes_partition (obj : object) :
  (exists attributes methods : gset string,
      attributes_excluding_methods iter obj = ([], Returned attributes)
      /\ method_names iter obj = ([], Returned methods)
      /\ attributes ## methods
      /\ attributes ∪ methods = list_to_set (dir obj))
  \/ (attributes_excluding_methods iter obj = ([], Raised AttributeError)
      /\ method_names iter obj = ([], Raised AttributeError)).
Proof.
  rewrite attributes_excluding_methods_cases, method_names_cases.
  destruct (forallb _ _); [left|by right].
  eexists _, _. split; [done|]. split; [done|]. split.
  - apply disjoint_difference_l1. done.
  - apply set_eq. intros x. rewrite elem_of_union, elem_of_difference.
    split.
    + intros [[Hx _]|Hx]; [done|].
      apply (elem_of_methods_of iter iter_perm) in Hx as [Hx _].
      by apply elem_of_list_to_set.
    + intros Hx. destruct (decide (x ∈ methods_of iter obj)); auto.
Qed.

(** C10. When some callable member of the object has no [__name__],
    [full_signature] raises [AttributeError] on it, whether or not its
    signature can be introspected, and [print_methods] raises
    [AttributeError], having printed nothing. *)
Theorem print_methods_requires_name (obj : object) (member : string)
    (method : value) :
  member ∈ dir obj ->
  o_attrs obj !! member = Some method ->
  callable method = true ->
  v_name method = None ->
  full_signature method = ([], Raised AttributeError)
  /\ print_methods iter obj = ([], Raised AttributeError).
Proof.
  intros Hdir Hget Hcall Hname. split.
  { rewrite full_signature_of_option. by rewrite Hname. }
  unfold print_methods.
  rewrite methods_names_and_docs_cases.
  destruct (forallb _ _); [|done].
  rewrite mapM_None_2; [done|].
  apply Exists_exists. exists member. split.
  - apply (elem_of_iter iter iter_perm), (elem_of_methods_of iter iter_perm).
    split; [done|]. unfold is_method. by rewrite Hget.
  - rewrite Hget. simpl. unfold method_row. by rewrite Hname.
Qed.


End probe_claims.

(** ** Witnesses for the probes *)

Lemma probes_partition_witness :
  (forall s : gset string, elements s ≡ₚ elements s)
  /\ exists attributes methods : gset string,
       attributes_excluding_methods elements test_customer
       = ([], Returned attributes)
       /\ method_names elements test_customer = ([], Returned methods)
       /\ attributes ## methods
       /\ attributes ∪ methods = list_to_set (dir test_customer).
Proof.
  split; [exact elements_iter_perm|].
  destruct (probes_partition elements elements_iter_perm test_customer)
    as [H|[H _]]; [exact H|].
  vm_compute in H. discriminate H.
Defined.

Lemma print_methods_requires_name_witness :
  (forall s : gset string, elements s ≡ₚ elements s)
  /\ "handler" ∈ dir partial_holder
  /\ (exists method,
         o_attrs partial_holder !! "handler" = Some method
         /\ callable method = true /\ v_name method = None)
  /\ print_methods elements partial_holder = ([], Raised AttributeError).
Proof.
  split; [exact elements_iter_perm|].
  assert ("handler" ∈ dir partial_holder) as Hdir by (vm_compute; left).
  split; [exact Hdir|].
  split.
  - eexists. split; [vm_compute; reflexivity|]. split; reflexivity.
  - eapply (print_methods_requires_name elements elements_iter_perm
              partial_holder "handler" _ Hdir);
      [vm_compute; reflexivity | reflexivity | reflexivity].
Defined.

(** A probe that has nothing to list hands the table printer no row. *)
Lemma print_attributes_nothing_to_list (iter : gset string -> list string)
    (obj : object) :
  attributes_names_and_values iter obj = ([], Returned []) ->
  print_attributes iter obj = ([], Raised IndexError).
Proof.
  intros H. unfold print_attributes. by rewrite (bind_returned _ _ _ _ H).
Qed.

Lemma print_methods_nothing_to_list (iter : gset string -> list string)
    (obj : object) :
  methods_names_and_docs iter obj = ([], Returned []) ->
  print_methods iter obj = ([], Raised IndexError).
Proof.
  intros H. unfold print_methods. by rewrite (bind_returned _ _ _ _ H).
Qed.


(** ** The report: claims *)

Lemma print_section_returned (obj : object) (section_name : string)
    (function_name : object -> M unit) (out : list string) :
  function_name obj = (out, Returned tt) ->
  print_section obj section_name function_name
  = (str_repeat "="%char 140 :: (section_name +:+ ":" +:+ newline) :: out,
     Returned tt).
Proof.
  intros Hf. unfold print_section, print_section_delimiter.
  rewrite !bind_print, Hf. reflexivity.
Qed.

(** C5. When the four probes return on an object, [print_object_details]
    returns, and what it prints is, in this order: a delimiter line, the
    header of the Type section and what the type probe prints; a
    delimiter line, the header of the Documentation section and what the
    documentation probe prints; a delimiter line, the header of the
    Attributes section and what the attributes probe prints; a delimiter
    line, the header of the Methods section and what the methods probe
    prints; a last delimiter line. That is five delimiter lines and four
    section headers of its own. Each header is the section name followed
    by a colon and a line feed. *)
Theorem print_object_details_layout (iter : gset string -> list string)
    (obj : object) (type_out doc_out attr_out meth_out : list string) :
  print_type obj = (type_out, Returned tt) ->
  print_documentation obj = (doc_out, Returned tt) ->
  print_attributes iter obj = (attr_out, Returned tt) ->
  print_methods iter obj = (meth_out, Returned tt) ->
  let delimiter := str_repeat "="%char 140 in
  print_object_details iter obj
  = ((delimiter :: ("Type:" +:+ newline) :: type_out)
     ++ (delimiter :: ("Documentation:" +:+ newline) :: doc_out)
     ++ (delimiter :: ("Attributes:" +:+ newline) :: attr_out)
     ++ (delimiter :: ("Methods:" +:+ newline) :: meth_out)
     ++ [delimiter],
     Returned tt)%list.
Proof.
  intros Htype Hdoc Hattr Hmeth delimiter.
  unfold print_object_details.
  rewrite (bind_returned _ _ _ _ (print_section_returned _ "Type" _ _ Htype)).
  rewrite (bind_returned _ _ _ _
             (print_section_returned _ "Documentation" _ _ Hdoc)).
  rewrite (bind_returned _ _ _ _
             (print_section_returned _ "Attributes" _ _ Hattr)).
  rewrite (bind_returned _ _ _ _
             (print_section_returned _ "Methods" _ _ Hmeth)).
  reflexivity.
Qed.

Lemma print_object_details_layout_witness :
  print_type test_customer = (["<class '__main__.Customer'>"], Returned tt)
  /\ print_documentation test_customer
     = (["Sample class to test print_object_details function"], Returned tt)
  /\ print_attributes elements test_customer
     = (stdout (print_attributes elements test_customer), Returned tt)
  /\ print_methods elements test_customer
     = (stdout (print_methods elements test_customer), Returned tt)
  /\ print_object_details elements test_customer
     = ((str_repeat "="%char 140 :: ("Type:" +:+ newline)
           :: ["<class '__main__.Customer'>"])
        ++ (str_repeat "="%char 140 :: ("Documentation:" +:+ newline)
              :: ["Sample class to test print_object_details function"])
        ++ (str_repeat "="%char 140 :: ("Attributes:" +:+ newline)
              :: stdout (print_attributes elements test_customer))
        ++ (str_repeat "="%char 140 :: ("Methods:" +:+ newline)
              :: stdout (print_methods elements test_customer))
        ++ [str_repeat "="%char 140],
        Returned tt)%list.
Proof.
  assert (print_type test_customer
          = (["<class '__main__.Customer'>"], Returned tt)) as Htype
    by reflexivity.
  assert (print_documentation test_customer
          = (["Sample class to test print_object_details function"],
             Returned tt)) as Hdoc
    by reflexivity.
  assert (print_attributes elements test_customer
          = (stdout (print_attributes elements test_customer), Returned tt))
    as Hattr by (vm_compute; reflexivity).
  assert (print_methods elements test_customer
          = (stdout (print_methods elements test_customer), Returned tt))
    as Hmeth by (vm_compute; reflexivity).
  split; [exact Htype|]. split; [exact Hdoc|].
  split; [exact Hattr|]. split; [exact Hmeth|].
  exact (print_object_details_layout elements test_customer _ _ _ _
           Htype Hdoc Hattr Hmeth).
Defined.

(** C9. For an object whose string form is Customer, the title is
    [Object "Customer" details], the fill count computed as
    [(140 - 4 - len(title)) // 2] is 55, and [print_title] prints one
    line: 55 hash signs, two spaces, the title, two spaces, 55 hash
    signs, and one more hash sign that brings the line to exactly 140
    characters. *)
Theorem print_title_customer (obj : object) :
  o_str obj = Returned "Customer" ->
  let banner55 :=
    str_repeat "#"%char 55 +:+ "  "
    +:+ ("Object " +:+ dquote +:+ "Customer" +:+ dquote +:+ " details")
    +:+ "  " +:+ str_repeat "#"%char 55 in
  title "Customer"
  = "Object " +:+ dquote +:+ "Customer" +:+ dquote +:+ " details"
  /\ num_of_fill_symbols (title "Customer")
     = ((140 - 4 - len (title "Customer")) / 2)%Z
  /\ num_of_fill_symbols (title "Customer") = 55%Z
  /\ print_title obj = ([banner55 +:+ str_repeat "#"%char 1], Returned tt)
  /\ String.length (banner55 +:+ str_repeat "#"%char 1) = 140.
Proof.
  intros Hstr banner55.
  split; [reflexivity|]. split; [reflexivity|]. split; [reflexivity|].
  split; [|reflexivity].
  unfold print_title, call_str. rewrite Hstr. reflexivity.
Qed.

Lemma print_title_customer_witness :
  o_str test_customer = Returned "Customer"
  /\ num_of_fill_symbols (title "Customer") = 55%Z
  /\ print_title test_customer
     = ([str_repeat "#"%char 55 +:+ "  "
         +:+ ("Object " +:+ dquote +:+ "Customer" +:+ dquote +:+ " details")
         +:+ "  " +:+ str_repeat "#"%char 56],
        Returned tt).
Proof.
  assert (o_str test_customer = Returned "Customer") as Hstr by reflexivity.
  destruct (print_title_customer test_customer Hstr)
    as (_ & _ & Hfill & Hprint & _).
  split; [exact Hstr|]. split; [exact Hfill|]. exact Hprint.
Defined.

(** * Further properties *)

(** ** Tables whose rows differ in length *)

Lemma foldr_min_le (n : nat) (ls : list nat) : foldr Nat.min n ls <= n.
Proof. induction ls; simpl; lia. Qed.

Lemma foldr_min_zero (n : nat) (ls : list nat) :
  Exists (fun l => l = 0) ls -> foldr Nat.min n ls = 0.
Proof. induction 1 as [l ls ->|l ls _ IH]; simpl; [done|]. rewrite IH. lia. Qed.

Lemma foldr_min_succ {A} (n : nat) (rs : list (list A)) :
  Forall (fun r => r <> []) rs ->
  foldr Nat.min (S n) (map length rs)
  = S (foldr Nat.min n (map length (map tail rs))).
Proof.
  induction 1 as [|r rs Hr _ IH]; simpl; [done|].
  rewrite IH. destruct r; [done|]. simpl. lia.
Qed.

Lemma heads_None {A} (rs : list (list A)) :
  heads rs = None -> Exists (fun l => l = 0) (map length rs).
Proof.
  unfold heads. intros H. apply mapM_None_1 in H.
  induction H as [r rs Hr|r rs _ IH]; simpl.
  - left. by destruct r.
  - by right.
Qed.

(** Zipping yields the columns up to the length of the shortest row. *)
Lemma zip_upto_columns {A} (d : A) (n : nat) (rs : list (list A)) :
  zip_upto n rs
  = map (fun j => map (fun r => default d (r !! j)) rs)
        (seq 0 (foldr Nat.min n (map length rs))).
Proof.
  revert rs. induction n as [|n IH]; intros rs; simpl.
  { pose proof (foldr_min_le 0 (map length rs)).
    by replace (foldr Nat.min 0 (map length rs)) with 0 by lia. }
  destruct (heads rs) as [hs|] eqn:E.
  - pose proof (heads_cons _ _ E) as Hcons.
    assert (Forall (fun r => r <> []) rs) as Hne.
    { clear -Hcons. induction Hcons as [|r h rs hs (r' & ->) _ IH];
        constructor; done. }
    assert (hs = map (fun r => default d (r !! 0)) rs) as ->.
    { clear -Hcons. induction Hcons as [|r h rs hs (r' & ->) _ IH];
        simpl; [done|]. by rewrite IH. }
    rewrite IH, foldr_min_succ by done.
    cbn [seq map]. f_equal.
    rewrite <- seq_shift, (map_map S). apply map_ext. intros j.
    rewrite map_map. apply map_ext. intros r. by destruct r.
  - by rewrite (foldr_min_zero _ _ (heads_None _ E)).
Qed.

Lemma zipped_widths_columns (table : list (list string)) :
  zipped_widths table = map (col_width table) (seq 0 (min_cells table)).
Proof.
  unfold zipped_widths, zip_star, min_cells.
  destruct table as [|r rs]; [done|].
  rewrite (zip_upto_columns "" (length r) (r :: rs)). simpl.
  rewrite Nat.min_r by apply foldr_min_le.
  rewrite List.map_map. apply map_ext. intros j. unfold col_width.
  cbn [map]. by rewrite List.map_map.
Qed.

Lemma min_cells_le {A} (table : list (list A)) (r : list A) :
  r ∈ table -> min_cells table <= length r.
Proof.
  unfold min_cells. destruct table as [|r0 rs]; [by intros ?%elem_of_nil|].
  intros [->|Hr]%elem_of_cons; [apply foldr_min_le|].
  induction rs as [|r1 rs IH]; [by apply elem_of_nil in Hr|].
  apply elem_of_cons in Hr as [->|Hr]; simpl; [lia|].
  specialize (IH Hr). lia.
Qed.

Lemma zip_with_ljust_take (widths : list nat) (k : nat) (row : list string) :
  length widths <= k ->
  zip_with ljust widths (take k row) = zip_with ljust widths row.
Proof.
  revert k row. induction widths as [|w widths IH]; intros k row Hk; [done|].
  destruct k as [|k]; simpl in Hk; [lia|].
  destruct row as [|c row]; [done|]. simpl. f_equal. apply IH. lia.
Qed.

Lemma min_cells_take {A} (k : nat) (table : list (list A)) :
  table <> [] ->
  min_cells (map (take k) table) = Nat.min k (min_cells table).
Proof.
  destruct table as [|r rs]; [done|]. intros _. unfold min_cells. cbn [map].
  induction rs as [|r1 rs IH]; cbn [map foldr].
  - by rewrite length_take.
  - rewrite IH, length_take. lia.
Qed.

Lemma col_width_take (table : list (list string)) (k j : nat) :
  j < k -> col_width (map (take k) table) j = col_width table j.
Proof.
  intros Hj. unfold col_width. rewrite List.map_map. f_equal.
  apply map_ext. intros r. by rewrite lookup_take_lt.
Qed.

Lemma zipped_widths_take (table : list (list string)) :
  table <> [] ->
  zipped_widths (map (take (min_cells table)) table) = zipped_widths table.
Proof.
  intros Hne. rewrite !zipped_widths_columns, min_cells_take by done.
  rewrite Nat.min_id. apply map_ext_in. intros j Hj.
  apply in_seq in Hj. apply col_width_take. lia.
Qed.

Lemma length_zipped_widths (table : list (list string)) :
  length (zipped_widths table) = min_cells table.
Proof. by rewrite zipped_widths_columns, length_map, length_seq. Qed.

(** X1. A table with rows of different lengths is printed as the table cut
    to its shortest row: once the first row has passed the arity check,
    only the first [m] cells of the headers and of every row are used,
    [m] being the smallest cell count among the header row and the
    rows. *)
Theorem print_table_cut_to_shortest (row0 : list string)
    (rows : list (list string)) (column_headers : list string) :
  length column_headers = length row0 ->
  let m := min_cells (column_headers :: row0 :: rows) in
  print_table (row0 :: rows) column_headers
  = print_table (map (take m) (row0 :: rows)) (take m column_headers).
Proof.
  intros Hlen m. cbn [map].
  rewrite !print_table_checked by (by rewrite ?length_take, ?Hlen).
  pose proof (zipped_widths_take (column_headers :: row0 :: rows)) as Hw.
  cbn [map] in Hw. fold m in Hw. rewrite Hw by done.
  set (widths := zipped_widths (column_headers :: row0 :: rows)).
  assert (length widths <= m) as Hm.
  { unfold widths. by rewrite length_zipped_widths. }
  unfold table_line. cbn [map]. rewrite !zip_with_ljust_take by done.
  rewrite List.map_map. do 4 f_equal. symmetry. apply map_ext. intros r.
  by rewrite zip_with_ljust_take.
Qed.

Lemma print_table_cut_to_shortest_witness :
  length ["H1"; "H2"] = length ["a"; "b"]
  /\ print_table [["a"; "b"]; ["c"]] ["H1"; "H2"]
     = print_table [["a"]; ["c"]] ["H1"].
Proof.
  assert (length ["H1"; "H2"] = length ["a"; "b"]) as Hlen by reflexivity.
  split; [exact Hlen|].
  exact (print_table_cut_to_shortest ["a"; "b"] [["c"]] ["H1"; "H2"] Hlen).
Defined.

(** ** Alignment *)

Lemma length_str_join_space (pieces : list string) :
  String.length (str_join " " pieces)
  = sum_list (map String.length pieces) + pred (length pieces).
Proof.
  induction pieces as [|p [|q pieces] IH]; [done|simpl; lia|].
  change (str_join " " (p :: q :: pieces))
    with (p +:+ " " +:+ str_join " " (q :: pieces)).
  rewrite !length_append, IH. simpl. lia.
Qed.

Lemma padded_lengths (widths : list nat) (row : list string) :
  (forall j w, widths !! j = Some w ->
     exists cell, row !! j = Some cell /\ String.length cell <= w) ->
  map String.length (zip_with ljust widths row) = widths.
Proof.
  revert row. induction widths as [|w widths IH]; intros row H; [done|].
  destruct (H 0 w eq_refl) as (cell & Hcell & Hle).
  destruct row as [|c row]; simplify_eq/=.
  rewrite length_ljust, IH; [f_equal; lia|].
  intros j w' Hj. exact (H (S j) w' Hj).
Qed.

Lemma rule_lengths (widths : list nat) :
  map String.length (map (str_repeat "-"%char) widths) = widths.
Proof.
  induction widths; simpl; [done|]. by rewrite length_str_repeat, IHwidths.
Qed.

Lemma table_line_length (table : list (list string)) (row : list string) :
  row ∈ table ->
  String.length (table_line (zipped_widths table) row)
  = sum_list (zipped_widths table) + pred (length (zipped_widths table)).
Proof.
  intros Hrow. unfold table_line. rewrite length_str_join_space.
  rewrite length_zip_with.
  pose proof (min_cells_le table row Hrow) as Hm.
  rewrite padded_lengths.
  - rewrite length_zipped_widths. f_equal. lia.
  - rewrite zipped_widths_columns. intros j w Hj.
    apply list_lookup_fmap_Some in Hj as (j' & Hw & Hj).
    apply lookup_seq in Hj as [Hj' Hlt]. simpl in Hj'. subst j' w.
    destruct (lookup_lt_is_Some_2 row j) as [cell Hcell]; [lia|].
    exists cell. split; [done|]. by eapply length_le_col_width.
Qed.

(** X2. Every line of a printed table has the same number of characters:
    the sum of the column widths plus one space between neighbouring
    columns. This holds for the header line, the rule line and every
    row, also when later rows are longer or shorter than the first. *)
Theorem print_table_lines_equal_length (row0 : list string)
    (rows : list (list string)) (column_headers : list string)
    (line : string) :
  length column_headers = length row0 ->
  line ∈ stdout (print_table (row0 :: rows) column_headers) ->
  let widths := zipped_widths (column_headers :: row0 :: rows) in
  String.length line = sum_list widths + pred (length widths).
Proof.
  intros Hlen Hline widths. rewrite print_table_checked in Hline by done.
  unfold stdout in Hline. cbn [fst] in Hline. fold widths in Hline.
  apply elem_of_cons in Hline as [->|Hline].
  { apply table_line_length. left. }
  apply elem_of_cons in Hline as [->|Hline].
  { unfold rule_line. rewrite length_str_join_space, rule_lengths, length_map.
    done. }
  apply list_elem_of_fmap in Hline as (row & -> & Hrow).
  apply table_line_length. by right.
Qed.

Lemma print_table_lines_equal_length_witness :
  length ["Name"; "Age"] = length ["Alice"; "30"]
  /\ "Bob   5  "
     ∈ stdout (print_table [["Alice"; "30"]; ["Bob"; "5"]] ["Name"; "Age"])
  /\ String.length "Bob   5  " = 9.
Proof.
  assert (length ["Name"; "Age"] = length ["Alice"; "30"]) as Hlen
    by reflexivity.
  assert ("Bob   5  "
          ∈ stdout (print_table [["Alice"; "30"]; ["Bob"; "5"]]
                                ["Name"; "Age"])) as Hline.
  { vm_compute. do 3 right. left. }
  split; [exact Hlen|]. split; [exact Hline|].
  exact (print_table_lines_equal_length ["Alice"; "30"] [["Bob"; "5"]]
           ["Name"; "Age"] "Bob   5  " Hlen Hline).
Defined.

(** ** The title banner *)

Lemma append_assoc (s t u : string) : (s +:+ t) +:+ u = s +:+ t +:+ u.
Proof. induction s; [done|]. rewrite !append_cons. congruence. Qed.

Lemma str_repeat_add (c : ascii) (a b : nat) :
  str_repeat c a +:+ str_repeat c b = str_repeat c (a + b).
Proof. induction a; [done|]. simpl. rewrite append_cons. congruence. Qed.

Lemma len_append (s t : string) : len (s +:+ t) = (len s + len t)%Z.
Proof. unfold len. rewrite length_append. lia. Qed.

Lemma len_str_repeat (c : ascii) (n : nat) : len (str_repeat c n) = Z.of_nat n.
Proof. unfold len. by rewrite length_str_repeat. Qed.

Lemma full_title_shape (t : string) :
  let n := Z.to_nat ((140 - 4 - len t) / 2) in
  let extra :=
    if (len t <=? 136)%Z then Z.to_nat ((140 - 4 - len t) mod 2) else 0 in
  full_title t
  = str_repeat "#"%char n +:+ "  " +:+ t +:+ "  "
    +:+ str_repeat "#"%char (n + extra).
Proof.
  intros n extra.
  assert (len (banner t) = 2 * Z.of_nat n + 4 + len t)%Z as Hb.
  { unfold banner, num_of_fill_symbols, str_mul, DEFAULT_LENGTH. fold n.
    rewrite !len_append, !len_str_repeat. change (len "  ") with 2%Z. lia. }
  assert (banner t = str_repeat "#"%char n +:+ "  " +:+ t +:+ "  "
                     +:+ str_repeat "#"%char n) as Hbanner by reflexivity.
  unfold full_title, DEFAULT_LENGTH, str_mul. rewrite Hb.
  destruct (Z.ltb_spec (2 * Z.of_nat n + 4 + len t) 140) as [Hlt|Hge].
  - rewrite Hbanner, !append_assoc, str_repeat_add. do 5 f_equal.
    unfold extra, n in *.
    destruct (Z.leb_spec (len t) 136);
      Z.to_euclidean_division_equations; lia.
  - replace extra with 0; [by rewrite Nat.add_0_r|].
    unfold extra, n in *.
    destruct (Z.leb_spec (len t) 136);
      [Z.to_euclidean_division_equations; lia|done].
Qed.

(** X3. What [print_title] does is decided by the call [obj.__str__()].
    When the call raises, as it does for a class object, [print_title]
    raises the same exception and prints nothing. When the call returns
    a string, [print_title] prints one line and returns. The line is
    the title between two spaces on each side, with [n] hash signs
    before it and [n] or [n + 1] after it, [n] being
    [(140 - 4 - len(title)) // 2], or no hash sign at all when the title
    has more than 136 characters. The line has exactly 140 characters
    unless the title has more than 136, and then it has four more than
    the title. *)
Theorem print_title_shape (obj : object) :
  match o_str obj with
  | Raised e => print_title obj = ([], Raised e)
  | Returned str =>
      let t := title str in
      let n := Z.to_nat ((140 - 4 - len t) / 2) in
      let extra :=
        if (len t <=? 136)%Z then Z.to_nat ((140 - 4 - len t) mod 2) else 0 in
      print_title obj
      = ([str_repeat "#"%char n +:+ "  " +:+ t +:+ "  "
          +:+ str_repeat "#"%char (n + extra)],
         Returned tt)
      /\ len (str_repeat "#"%char n +:+ "  " +:+ t +:+ "  "
              +:+ str_repeat "#"%char (n + extra))
         = Z.max 140 (len t + 4)
      /\ extra <= 1
  end.
Proof.
  destruct (o_str obj) as [str|e] eqn:Hstr.
  2: { unfold print_title, call_str. by rewrite Hstr. }
  intros t n extra. split; [|split].
  - unfold print_title, call_str. rewrite Hstr.
    change (bind ([], Returned str)
                 (fun str0 => print (full_title (title str0))))
      with (print (full_title t)).
    unfold print. by rewrite full_title_shape.
  - rewrite !len_append, !len_str_repeat.
    change (len "  ") with 2%Z. unfold extra, n.
    pose proof (Nat2Z.is_nonneg (String.length t)) as Hpos.
    fold (len t) in Hpos.
    destruct (Z.leb_spec (len t) 136);
      Z.to_euclidean_division_equations; lia.
  - unfold extra. destruct (Z.leb_spec (len t) 136); [|lia].
    Z.to_euclidean_division_equations; lia.
Qed.

(** ** The brief documentation *)

Lemma splitlines_from_head (line s : string) :
  head (splitlines_from false line s)
  = match line +:+ s with
    | EmptyString => None
    | _ => Some (line +:+ first_line s)
    end.
Proof.
  revert line. induction s as [|c s IH]; intros line.
  - simpl. rewrite append_empty_r. by destruct line.
  - cbn [splitlines_from andb first_line].
    destruct (is_linebreak c) eqn:Hc.
    + simpl. rewrite append_empty_r.
      destruct line; [done|]. by rewrite append_cons.
    + rewrite IH, !append_assoc, !append_cons.
      change ("" +:+ s) with s. change ("" +:+ first_line s) with (first_line s).
      destruct line; [done|]. by rewrite append_cons.
Qed.

Lemma brief_documentation_eq (method : value) :
  brief_documentation method
  = match v_doc method with
    | Some doc => first_line doc
    | None => ""
    end.
Proof.
  unfold brief_documentation, splitlines.
  destruct (v_doc method) as [doc|]; [|done].
  pose proof (splitlines_from_head "" doc) as H.
  change ("" +:+ doc) with doc in H.
  change ("" +:+ first_line doc) with (first_line doc) in H.
  destruct (splitlines_from false "" doc) as [|l ls]; simpl in H.
  - by destruct doc.
  - destruct doc; by simplify_eq.
Qed.

Lemma first_line_split (s : string) :
  exists rest,
    s = first_line s +:+ rest
    /\ Forall (fun c => is_linebreak c = false)
              (String.list_ascii_of_string (first_line s))
    /\ match rest with
       | EmptyString => True
       | String c _ => is_linebreak c = true
       end.
Proof.
  induction s as [|c s (rest & Hs & Hno & Hrest)]; [by exists ""|].
  cbn [first_line]. destruct (is_linebreak c) eqn:Hc.
  - exists (String c s). by repeat split.
  - exists rest. rewrite append_cons, <- Hs. split; [done|]. split; [|done].
    simpl. by constructor.
Qed.

(** X4. The description of a member that has documentation is the text of
    the documentation up to its first line break: the documentation
    starts with the description, the description holds no line-break
    character, and what follows it is nothing or starts with a line
    break. In particular a docstring that begins with a line break, as
    the docstrings of this module do, gives the empty description. *)
Theorem brief_documentation_is_first_line (method : value) (doc : string) :
  v_doc method = Some doc ->
  (exists rest,
      doc = brief_documentation method +:+ rest
      /\ Forall (fun c => is_linebreak c = false)
                (String.list_ascii_of_string (brief_documentation method))
      /\ match rest with
         | EmptyString => True
         | String c _ => is_linebreak c = true
         end)
  /\ (forall c doc', doc = String c doc' -> is_linebreak c = true ->
        brief_documentation method = "").
Proof.
  intros Hdoc. rewrite brief_documentation_eq, Hdoc. split.
  - apply first_line_split.
  - intros c doc' -> Hc. simpl. by rewrite Hc.
Qed.

Lemma brief_documentation_is_first_line_witness :
  v_doc (method "get_full_name" "()"
           (Some (newline +:+ "        Return full customer's name"
                  +:+ newline +:+ "        ")))
  = Some (newline +:+ "        Return full customer's name"
          +:+ newline +:+ "        ")
  /\ brief_documentation
       (method "get_full_name" "()"
          (Some (newline +:+ "        Return full customer's name"
                 +:+ newline +:+ "        ")))
     = "".
Proof.
  split; [reflexivity|].
  destruct (brief_documentation_is_first_line
              (method "get_full_name" "()"
                 (Some (newline +:+ "        Return full customer's name"
                        +:+ newline +:+ "        ")))
              _ eq_refl) as [_ Hempty].
  eapply Hempty; reflexivity.
Defined.

(** ** The probes: outcomes and rows *)

Lemma attribute_row_step (obj : object) (name : string) :
  (v <- getattr obj name ;; ret [name; v_repr v])
  = of_option AttributeError
      ((fun v => [name; v_repr v]) <$> o_attrs obj !! name).
Proof.
  unfold getattr. destruct (o_attrs obj !! name); [|done].
  by rewrite bind_ret_l.
Qed.

Lemma attributes_names_and_values_cases (iter : gset string -> list string)
    (obj : object) :
  attributes_names_and_values iter obj
  = if forallb (resolvable obj) (iter (list_to_set (dir obj)))
    then of_option AttributeError
           (mapM (fun name => (fun v => [name; v_repr v]) <$> o_attrs obj !! name)
                 (iter (list_to_set (dir obj) ∖ methods_of iter obj)))
    else raise AttributeError.
Proof.
  unfold attributes_names_and_values.
  rewrite attributes_excluding_methods_cases.
  destruct (forallb _ _); [|done]. rewrite bind_ret_l.
  apply list_comp_of_option, attribute_row_step.
Qed.

Lemma attribute_rows_pairs (obj : object) (names : list string)
    (rows : list (list string)) :
  mapM (fun name => (fun v => [name; v_repr v]) <$> o_attrs obj !! name) names
  = Some rows ->
  Forall (fun row => length row = 2) rows.
Proof.
  intros H. apply mapM_Some_1 in H.
  induction H as [|name row names rows Hrow _ IH]; constructor; [|done].
  destruct (o_attrs obj !! name); by simplify_eq/=.
Qed.

Lemma table_of_pairs_outcome (rows : list (list string)) (h1 h2 : string) :
  Forall (fun row => length row = 2) rows ->
  print_table rows [h1; h2] = ([], Raised IndexError)
  \/ exists out, print_table rows [h1; h2] = (out, Returned tt)
                 /\ length out = length rows + 2 /\ rows <> [].
Proof.
  intros Hall. destruct rows as [|row0 rows]; [by left|]. right.
  destruct (print_table_pairs (row0 :: rows) h1 h2) as (w1 & w2 & ->);
    [done..|].
  eexists. split; [done|]. simpl. rewrite length_map. split; [lia|done].
Qed.


Section probe_rows.
Variable iter : gset string -> list string.
Hypothesis iter_perm : forall s, iter s ≡ₚ elements s.

Lemma NoDup_iter (s : gset string) : NoDup (iter s).
Proof. rewrite iter_perm. apply NoDup_elements. Qed.

Lemma length_iter (s : gset string) : length (iter s) = size s.
Proof. by rewrite iter_perm. Qed.

Lemma resolvable_all (obj : object) :
  Forall (fun x => is_Some (o_attrs obj !! x)) (dir obj) ->
  forallb (resolvable obj) (iter (list_to_set (dir obj))) = true.
Proof.
  intros Hall. apply (forallb_resolvable iter iter_perm).
  by apply Forall_forall.
Qed.

(** X6. When every enumerated name resolves, the attributes probe builds
    one row per name that resolves to a non-callable value: each such
    name has exactly one row, also when [dir] lists it more than once,
    no other name has a row, and the row is the name and the abbreviated
    representation of its value. *)
Theorem attributes_probe_rows (obj : object) :
  Forall (fun x => is_Some (o_attrs obj !! x)) (dir obj) ->
  exists names rows,
    attributes_names_and_values iter obj = ([], Returned rows)
    /\ NoDup names
    /\ (forall x, x ∈ names <->
                  x ∈ dir obj
                  /\ exists v, o_attrs obj !! x = Some v /\ callable v = false)
    /\ Forall2 (fun name row =>
                  exists v, o_attrs obj !! name = Some v
                            /\ row = [name; v_repr v])
               names rows.
Proof.
  intros Hall. pose proof (resolvable_all obj Hall) as Hres.
  rewrite Forall_forall in Hall.
  set (names := iter (list_to_set (dir obj) ∖ methods_of iter obj)).
  assert (forall x, x ∈ names <->
            x ∈ dir obj
            /\ exists v, o_attrs obj !! x = Some v /\ callable v = false)
    as Hnames.
  { intros x. unfold names.
    rewrite (elem_of_iter iter iter_perm), elem_of_difference,
      elem_of_list_to_set, (elem_of_methods_of iter iter_perm).
    unfold is_method. split.
    - intros [Hx Hm]. split; [done|]. destruct (Hall x Hx) as [v Hv].
      exists v. split; [done|]. rewrite Hv in Hm.
      destruct (callable v); [|done]. by destruct Hm.
    - intros [Hx (v & Hv & Hc)]. split; [done|]. rewrite Hv, Hc.
      by intros [_ ?]. }
  assert (is_Some (mapM (fun name =>
                           (fun v => [name; v_repr v]) <$> o_attrs obj !! name)
                        names)) as [rows Hrows].
  { apply mapM_is_Some_2, Forall_forall. intros x Hx. simpl.
    apply Hnames in Hx as [Hx _]. destruct (Hall x Hx) as [v ->]. by eexists. }
  exists names, rows.
  split; [by rewrite attributes_names_and_values_cases, Hres; fold names;
          rewrite Hrows|].
  split; [apply NoDup_iter|]. split; [exact Hnames|].
  apply mapM_Some_1 in Hrows. eapply Forall2_impl; [exact Hrows|].
  intros name row Hrow. simpl in Hrow.
  destruct (o_attrs obj !! name) as [v|] eqn:Hv; [|done].
  exists v. by simplify_eq/=.
Qed.


(** X8. When both probes return, the two tables together have one row for
    every distinct name that [dir] enumerates: counting out the header
    line and the rule line of each table, the numbers of printed lines
    add up to the number of distinct names. *)
Theorem probes_rows_total (obj : object) (attr_out meth_out : list string) :
  print_attributes iter obj = (attr_out, Returned tt) ->
  print_methods iter obj = (meth_out, Returned tt) ->
  (length attr_out - 2) + (length meth_out - 2)
  = size (list_to_set (dir obj) : gset string).
Proof.
  unfold print_attributes, print_methods.
  rewrite attributes_names_and_values_cases, methods_names_and_docs_cases.
  destruct (forallb _ _); [|done].
  destruct (mapM _ (iter (_ ∖ _))) as [arows|] eqn:Ea; [|done].
  destruct (mapM _ (iter (methods_of _ _))) as [mrows|] eqn:Em; [|done].
  simpl. rewrite !bind_ret_l. intros Ha Hm.
  destruct (table_of_pairs_outcome arows "Name" "Value")
    as [Ha'|(aout & Ha' & Hla & _)]; [by eapply attribute_rows_pairs|congruence|].
  destruct (table_of_pairs_outcome mrows "Name" "Description")
    as [Hm'|(mout & Hm' & Hlm & _)]; [by eapply method_rows_pairs|congruence|].
  rewrite Ha' in Ha. rewrite Hm' in Hm. simplify_eq.
  rewrite Hla, Hlm.
  apply length_mapM in Ea, Em. rewrite length_iter in Ea, Em.
  rewrite <- Ea, <- Em.
  replace (size (list_to_set (dir obj) ∖ methods_of iter obj) + 2 - 2
           + (size (methods_of iter obj) + 2 - 2))
    with (size (list_to_set (dir obj) ∖ methods_of iter obj)
          + size (methods_of iter obj)) by lia.
  rewrite <- size_union by (by apply disjoint_difference_l1).
  f_equal. apply set_eq. intros x.
  rewrite elem_of_union, elem_of_difference. split.
  - intros [[Hx _]|Hx]; [done|].
    apply (elem_of_methods_of iter iter_perm) in Hx as [Hx _].
    by apply elem_of_list_to_set.
  - intros Hx. destruct (decide (x ∈ methods_of iter obj)); auto.
Qed.
End probe_rows.

Lemma attributes_probe_rows_witness :
  (forall s : gset string, elements s ≡ₚ elements s)
  /\ Forall (fun x => is_Some (o_attrs test_customer !! x)) (dir test_customer)
  /\ exists names rows,
       attributes_names_and_values elements test_customer = ([], Returned rows)
       /\ NoDup names
       /\ (forall x, x ∈ names <->
                     x ∈ dir test_customer
                     /\ exists v, o_attrs test_customer !! x = Some v
                                  /\ callable v = false)
       /\ Forall2 (fun name row =>
                     exists v, o_attrs test_customer !! name = Some v
                               /\ row = [name; v_repr v])
                  names rows.
Proof.
  assert (Forall (fun x => is_Some (o_attrs test_customer !! x))
                 (dir test_customer)) as Hall.
  { repeat (constructor; [eexists; vm_compute; reflexivity|]). constructor. }
  split; [exact elements_iter_perm|]. split; [exact Hall|].
  exact (attributes_probe_rows elements elements_iter_perm test_customer Hall).
Defined.


Lemma probes_rows_total_witness :
  (forall s : gset string, elements s ≡ₚ elements s)
  /\ print_attributes elements test_customer
     = (stdout (print_attributes elements test_customer), Returned tt)
  /\ print_methods elements test_customer
     = (stdout (print_methods elements test_customer), Returned tt)
  /\ (length (stdout (print_attributes elements test_customer)) - 2)
     + (length (stdout (print_methods elements test_customer)) - 2)
     = 7.
Proof.
  assert (print_attributes elements test_customer
          = (stdout (print_attributes elements test_customer), Returned tt))
    as Hattr by (vm_compute; reflexivity).
  assert (print_methods elements test_customer
          = (stdout (print_methods elements test_customer), Returned tt))
    as Hmeth by (vm_compute; reflexivity).
  split; [exact elements_iter_perm|]. split; [exact Hattr|].
  split; [exact Hmeth|].
  rewrite (probes_rows_total elements elements_iter_perm test_customer _ _
             Hattr Hmeth).
  vm_compute. reflexivity.
Defined.

(** ** The report when a probe fails *)

Lemma print_section_unfold (obj : object) (section_name : string)
    (function_name : object -> M unit) :
  print_section obj section_name function_name
  = (str_repeat "="%char 140 :: (section_name +:+ ":" +:+ newline)
       :: fst (function_name obj),
     snd (function_name obj)).
Proof. reflexivity. Qed.

Lemma print_section_raised (obj : object) (section_name : string)
    (function_name : object -> M unit) (out : list string) (e : exn) :
  function_name obj = (out, Raised e) ->
  print_section obj section_name function_name
  = (str_repeat "="%char 140 :: (section_name +:+ ":" +:+ newline) :: out,
     Raised e).
Proof. intros Hf. by rewrite print_section_unfold, Hf. Qed.

Lemma stdout_bind {A B} (m : M A) (k : A -> M B) :
  exists rest, stdout (bind m k) = (stdout m ++ rest)%list.
Proof.
  unfold bind, stdout. destruct m as [out [a|e]]; simpl.
  - by eexists.
  - exists []. by rewrite app_nil_r.
Qed.

(** X9. Whatever the object and whatever happens in the two tabular probes,
    the report begins with the same eight lines: the delimiter, the Type
    header and the type of the object; the delimiter, the Documentation
    header and the documentation, or the word None when the object has
    none; the delimiter and the Attributes header. *)
Theorem report_always_starts (iter : gset string -> list string)
    (obj : object) :
  exists rest,
    stdout (print_object_details iter obj)
    = ([str_repeat "="%char 140; "Type:" +:+ newline; o_type obj;
        str_repeat "="%char 140; "Documentation:" +:+ newline;
        default "None" (o_getdoc obj);
        str_repeat "="%char 140; "Attributes:" +:+ newline] ++ rest)%list.
Proof.
  unfold print_object_details.
  rewrite (bind_returned _ _ _ _
             (print_section_returned obj "Type" print_type _ eq_refl)).
  rewrite (bind_returned _ _ _ _
             (print_section_returned obj "Documentation" print_documentation
                _ eq_refl)).
  destruct (stdout_bind (print_section obj "Attributes" (print_attributes iter))
              (fun _ => print_section obj "Methods" (print_methods iter) ;;;
                        print_section_delimiter DEFAULT_LENGTH))
    as [rest Hrest].
  unfold stdout in *. cbn [fst]. rewrite Hrest, print_section_unfold.
  cbn [fst]. eexists. reflexivity.
Qed.

(** X10. When the attributes probe raises, the report stops there: the
    exception leaves [print_object_details], the Type and Documentation
    sections and the Attributes header have been printed, and neither
    the Methods section nor the closing delimiter is printed. *)
Theorem report_aborted_by_attributes (iter : gset string -> list string)
    (obj : object) (out : list string) (e : exn) :
  print_attributes iter obj = (out, Raised e) ->
  print_object_details iter obj
  = ([str_repeat "="%char 140; "Type:" +:+ newline; o_type obj;
      str_repeat "="%char 140; "Documentation:" +:+ newline;
      default "None" (o_getdoc obj);
      str_repeat "="%char 140; "Attributes:" +:+ newline] ++ out,
     Raised e)%list.
Proof.
  intros Hattr. unfold print_object_details.
  rewrite (bind_returned _ _ _ _
             (print_section_returned obj "Type" print_type _ eq_refl)).
  rewrite (bind_returned _ _ _ _
             (print_section_returned obj "Documentation" print_documentation
                _ eq_refl)).
  rewrite (bind_raised _ _ _ _
             (print_section_raised obj "Attributes" _ _ _ Hattr)).
  reflexivity.
Qed.

Lemma report_aborted_by_attributes_witness :
  print_attributes elements methods_only = ([], Raised IndexError)
  /\ print_object_details elements methods_only
     = ([str_repeat "="%char 140; "Type:" +:+ newline; "<class 'Bare'>";
         str_repeat "="%char 140; "Documentation:" +:+ newline; "None";
         str_repeat "="%char 140; "Attributes:" +:+ newline],
        Raised IndexError).
Proof.
  assert (print_attributes elements methods_only = ([], Raised IndexError))
    as Hattr by (vm_compute; reflexivity).
  split; [exact Hattr|].
  exact (report_aborted_by_attributes elements methods_only [] IndexError Hattr).
Defined.

(** X11. When the attributes probe returns and the methods probe raises, the
    exception leaves [print_object_details] after the first three
    sections and the Methods header have been printed; the closing
    delimiter is not printed. *)
Theorem report_aborted_by_methods (iter : gset string -> list string)
    (obj : object) (attr_out meth_out : list string) (e : exn) :
  print_attributes iter obj = (attr_out, Returned tt) ->
  print_methods iter obj = (meth_out, Raised e) ->
  print_object_details iter obj
  = ([str_repeat "="%char 140; "Type:" +:+ newline; o_type obj;
      str_repeat "="%char 140; "Documentation:" +:+ newline;
      default "None" (o_getdoc obj);
      str_repeat "="%char 140; "Attributes:" +:+ newline]
     ++ attr_out
     ++ [str_repeat "="%char 140; "Methods:" +:+ newline]
     ++ meth_out,
     Raised e)%list.
Proof.
  intros Hattr Hmeth. unfold print_object_details.
  rewrite (bind_returned _ _ _ _
             (print_section_returned obj "Type" print_type _ eq_refl)).
  rewrite (bind_returned _ _ _ _
             (print_section_returned obj "Documentation" print_documentation
                _ eq_refl)).
  rewrite (bind_returned _ _ _ _
             (print_section_returned obj "Attributes" _ _ Hattr)).
  rewrite (bind_raised _ _ _ _
             (print_section_raised obj "Methods" _ _ _ Hmeth)).
  reflexivity.
Qed.

Lemma report_aborted_by_methods_witness :
  print_attributes elements partial_holder
  = (["Name  Value"; "----- -----"; "label 'x'  "], Returned tt)
  /\ print_methods elements partial_holder = ([], Raised AttributeError)
  /\ print_object_details elements partial_holder
     = ([str_repeat "="%char 140; "Type:" +:+ newline; "<class 'Holder'>";
         str_repeat "="%char 140; "Documentation:" +:+ newline; "None";
         str_repeat "="%char 140; "Attributes:" +:+ newline;
         "Name  Value"; "----- -----"; "label 'x'  ";
         str_repeat "="%char 140; "Methods:" +:+ newline],
        Raised AttributeError).
Proof.
  assert (print_attributes elements partial_holder
          = (["Name  Value"; "----- -----"; "label 'x'  "], Returned tt))
    as Hattr by (vm_compute; reflexivity).
  assert (print_methods elements partial_holder = ([], Raised AttributeError))
    as Hmeth by (vm_compute; reflexivity).
  split; [exact Hattr|]. split; [exact Hmeth|].
  exact (report_aborted_by_methods elements partial_holder _ _ _ Hattr Hmeth).
Defined.
